(** * The Cloud Vision client facade (vision/google/cloud/vision/client.py)

    A shallow embedding of the [Client] class: the module-level constant
    [_USE_GAX], the constructor, the two factory methods [batch] and [image],
    and the memoising property [_vision_api].  Python objects live in a heap
    and are named by their address, so that object identity, the
    back-reference of a [Batch], an [Image] or a transport adapter to its
    client, and the in-place update of the client are what they are in the
    source. *)

From stdpp Require Import gmap strings list.
From Stdlib.Strings Require Import Byte.

(** ** Python values and exceptions *)

(** Address of an object on the heap ([id(obj)]). *)
Abbreviation loc := nat (only parsing).

(** The Python values that reach the facade. *)
Inductive pyval :=
| PyNone
| PyBool (b : bool)
| PyStr (s : string)
| PyRef (l : loc).

(** Truth value testing, as done by [not x] and [if x:]. *)
Definition truthy (v : pyval) : bool :=
  match v with
  | PyNone => false
  | PyBool b => b
  | PyStr EmptyString => false
  | PyStr (String _ _) => true
  | PyRef _ => true
  end.

Definition py_not (v : pyval) : bool := negb (truthy v).

Inductive exn :=
| AuthenticationResolutionError
| AttributeError.

Inductive Result (A : Type) :=
| Ok (a : A)
| Raise (e : exn).
Arguments Ok {A} a.
Arguments Raise {A} e.

(** ** Objects *)

(** Credentials and http objects are external and opaque; only their
    identity matters here. *)
Inductive Credentials := Cred (id : nat).
Inductive Http := HttpObj (id : nat).

(** Instance attributes of a [Client].  [_vision_api_internal] is [None]
    while the lookup still falls through to the class attribute
    [_vision_api_internal = None]. *)
Record ClientObj := {
  project : string;
  credentials : option Credentials;
  http : option Http;
  _use_gax : pyval;
  _vision_api_internal : option loc;
}.

(** In-place assignment of one attribute. *)
Definition with_use_gax (v : pyval) (c : ClientObj) : ClientObj :=
  {| project := project c; credentials := credentials c; http := http c;
     _use_gax := v; _vision_api_internal := _vision_api_internal c |}.

Definition with_vision_api_internal (a : loc) (c : ClientObj) : ClientObj :=
  {| project := project c; credentials := credentials c; http := http c;
     _use_gax := _use_gax c; _vision_api_internal := Some a |}.

(** Modelled from the spec: the classes [Batch], [Image], [_GAPICVisionAPI]
    and [_HTTPVisionAPI] are imported from modules that are not part of the
    source at hand.  The spec describes [Batch] and [Image] as lightweight
    request builders constructed with a back-reference to the client, and the
    two adapters as bound to the owning client at creation; constructing one
    is pure object construction and cannot fail.  Each object is therefore
    its class together with the arguments its constructor received. *)
Inductive obj :=
| OClient (c : ClientObj)
| OBatch (client : loc)
| OImage (client : loc) (content : option (list byte))
         (filename : option string) (source_uri : option string)
| OGAPICVisionAPI (client : loc)
| OHTTPVisionAPI (client : loc).

(** ** The world: process environment, module globals and heap *)

Record World := {
  environ : gmap string string;            (* os.environ *)
  ambient_project : option string;         (* what project inference finds *)
  ambient_credentials : option Credentials;(* what credential inference finds *)
  _USE_GAX : bool;                         (* module global of client.py *)
  heap : list obj;                         (* objects, by address *)
}.

Definition set_heap (h : list obj) (w : World) : World :=
  {| environ := environ w; ambient_project := ambient_project w;
     ambient_credentials := ambient_credentials w;
     _USE_GAX := _USE_GAX w; heap := h |}.

Definition set_environ (e : gmap string string) (w : World) : World :=
  {| environ := e; ambient_project := ambient_project w;
     ambient_credentials := ambient_credentials w;
     _USE_GAX := _USE_GAX w; heap := heap w |}.

(** ** A state and exception monad *)

Definition M (A : Type) : Type := World -> Result (A * World).

Definition ret {A} (a : A) : M A := fun w => Ok (a, w).

Definition bind {A B} (m : M A) (k : A -> M B) : M B :=
  fun w => match m w with
           | Ok (a, w') => k a w'
           | Raise e => Raise e
           end.

Definition raise {A} (e : exn) : M A := fun _ => Raise e.

Notation "'do' x <- m ; k" := (bind m (fun x => k))
  (at level 10, x name, m at level 100, k at level 200).

Definition get_world : M World := fun w => Ok (w, w).

(** Object creation: the new object gets a fresh address. *)
Definition alloc (o : obj) : M loc :=
  fun w => Ok (length (heap w), set_heap (heap w ++ [o]) w).

(** Reading the attributes of [self]; anything that is not a client has
    none of them. *)
Definition get_client (self : loc) : M ClientObj :=
  fun w => match heap w !! self with
           | Some (OClient c) => Ok (c, w)
           | _ => Raise AttributeError
           end.

Definition put_client (self : loc) (c : ClientObj) : M unit :=
  fun w => Ok (tt, set_heap (<[self := OClient c]> (heap w)) w).

(** ** Module level *)

(** Modelled from the spec: [DISABLE_GRPC] comes from
    [google.cloud.environment_vars], which is not part of the source at
    hand; it names the "disable remote-procedure transport" toggle, and the
    docstring of [Client] gives its value. *)
Definition DISABLE_GRPC : string := "GOOGLE_CLOUD_DISABLE_GRPC".

(** [os.getenv(key, default)]. *)
Definition os_getenv (env : gmap string string) (key : string)
    (default : pyval) : pyval :=
  match env !! key with
  | Some s => PyStr s
  | None => default
  end.

(** [SCOPE], the class attribute. *)
Definition SCOPE : list string :=
  ["https://www.googleapis.com/auth/cloud-platform"].

(** Importing [client.py]: the one statement with an effect is
    [_USE_GAX = not os.getenv(DISABLE_GRPC, False)].  No object of the
    module exists yet. *)
Definition import_module (env : gmap string string)
    (ap : option string) (ac : option Credentials) : World :=
  {| environ := env; ambient_project := ap; ambient_credentials := ac;
     _USE_GAX := py_not (os_getenv env DISABLE_GRPC (PyBool false));
     heap := [] |}.

(** ** The base class *)

(** Modelled from the spec: [ClientWithProject.__init__] lives in
    [google.cloud.client], which is not part of the source at hand.  Per the
    spec, construction resolves project and credentials from the arguments or
    else from the ambient environment, and fails with an
    AuthenticationResolutionError when project or credentials cannot be
    determined.  The [http] argument is absent from the spec; the docstring
    of [Client] says that credentials fall back to the environment only if
    neither credentials nor an http object is passed.  The result is the
    triple of attributes the base class sets. *)
Definition ClientWithProject_init (project : option string)
    (credentials : option Credentials) (http : option Http)
  : M (string * option Credentials * option Http) :=
  do w <- get_world;
  match (match project with Some p => Some p | None => ambient_project w end) with
  | None => raise AuthenticationResolutionError
  | Some p =>
      match credentials, http with
      | None, None =>
          match ambient_credentials w with
          | None => raise AuthenticationResolutionError
          | Some c => ret (p, Some c, None)
          end
      | _, _ => ret (p, credentials, http)
      end
  end.

(** ** The class [Client] *)

Module Client.

(** [Client(project, credentials, http, use_gax)]: allocation followed by
    [__init__]. *)
Definition __init__ (project : option string)
    (credentials : option Credentials) (http : option Http)
    (use_gax : pyval) : M loc :=
  do base <- ClientWithProject_init project credentials http;
  do w <- get_world;
  let '(p, c, h) := base in
  alloc (OClient {| project := p; credentials := c; http := h;
                    _use_gax := match use_gax with
                                | PyNone => PyBool (_USE_GAX w)
                                | _ => use_gax
                                end;
                    _vision_api_internal := None |}).

(** [return Batch(self)] *)
Definition batch (self : loc) : M loc :=
  do _ <- get_client self;
  alloc (OBatch self).

(** [return Image(client=self, content=content, filename=filename,
    source_uri=source_uri)] *)
Definition image (self : loc) (content : option (list byte))
    (filename : option string) (source_uri : option string) : M loc :=
  do _ <- get_client self;
  alloc (OImage self content filename source_uri).

(** The property [_vision_api]. *)
Definition _vision_api (self : loc) : M loc :=
  do c <- get_client self;
  match _vision_api_internal c with
  | None =>
      do a <- alloc (if truthy (_use_gax c)
                  then OGAPICVisionAPI self
                  else OHTTPVisionAPI self);
      do _ <- put_client self (with_vision_api_internal a c);
      ret a
  | Some a => ret a
  end.

End Client.

(** ** Call sequences *)

(** What a caller can do between two points of a client's life: the
    operations of the class, and the two changes from outside that the
    memoisation has to withstand, assigning the transport flag and changing
    the process environment. *)
Inductive op :=
| NewClient (project : option string) (credentials : option Credentials)
            (http : option Http) (use_gax : pyval)
| CallBatch (self : loc)
| CallImage (self : loc) (content : option (list byte))
            (filename : option string) (source_uri : option string)
| GetVisionApi (self : loc)
| SetUseGax (self : loc) (v : pyval)
| SetEnv (k v : string)
| DelEnv (k : string).

Definition set_use_gax (self : loc) (v : pyval) : M unit :=
  do c <- get_client self;
  put_client self (with_use_gax v c).

Definition run_op (o : op) : M pyval :=
  match o with
  | NewClient p c h g => do l <- Client.__init__ p c h g; ret (PyRef l)
  | CallBatch self => do l <- Client.batch self; ret (PyRef l)
  | CallImage self c f u => do l <- Client.image self c f u; ret (PyRef l)
  | GetVisionApi self => do l <- Client._vision_api self; ret (PyRef l)
  | SetUseGax self v => do _ <- set_use_gax self v; ret PyNone
  | SetEnv k v => fun w => Ok (PyNone, set_environ (<[k := v]> (environ w)) w)
  | DelEnv k => fun w => Ok (PyNone, set_environ (delete k (environ w)) w)
  end.

(** One call: its outcome and the world after it.  Every operation raises
    before it writes, so an exception leaves the world as it was. *)
Definition step (o : op) (w : World) : Result pyval * World :=
  match run_op o w with
  | Ok (v, w') => (Ok v, w')
  | Raise e => (Raise e, w)
  end.

Fixpoint exec (os : list op) (w : World) : list (Result pyval) * World :=
  match os with
  | [] => ([], w)
  | o :: os' =>
      let '(r, w1) := step o w in
      let '(rs, w2) := exec os' w1 in
      (r :: rs, w2)
  end.

(** The operations of the class itself. *)
Definition facade_op (o : op) : bool :=
  match o with
  | CallBatch _ | CallImage _ _ _ _ | GetVisionApi _ => true
  | _ => false
  end.

(** The first access to the adapter of [self] is such a call. *)
Definition is_access (self : loc) (o : op) : bool :=
  match o with
  | GetVisionApi l => bool_decide (l = self)
  | _ => false
  end.

(** The operations that assign the transport flag of [self]. *)
Definition writes_flag (self : loc) (o : op) : bool :=
  match o with
  | SetUseGax l _ => bool_decide (l = self)
  | _ => false
  end.

(** ** Observations *)

Definition is_adapter_of (self : loc) (o : obj) : bool :=
  match o with
  | OGAPICVisionAPI c | OHTTPVisionAPI c => bool_decide (c = self)
  | _ => false
  end.

(** Number of adapters ever constructed for [self]. *)
Definition adapters_constructed (self : loc) (w : World) : nat :=
  length (List.filter (is_adapter_of self) (heap w)).

(** The two states of a client. *)
Inductive state := AdapterUnresolved | AdapterResolved (a : loc).

Definition client_state (self : loc) (w : World) : option state :=
  match heap w !! self with
  | Some (OClient c) =>
      Some (match _vision_api_internal c with
            | None => AdapterUnresolved
            | Some a => AdapterResolved a
            end)
  | _ => None
  end.

(** The adapter class chosen by a truth value of the transport flag. *)
Definition adapter_for (b : bool) (self : loc) : obj :=
  if b then OGAPICVisionAPI self else OHTTPVisionAPI self.

(** Worlds that a program can be in: the module has been imported and
    some calls have been made. *)
Inductive reachable : World -> Prop :=
| reach_import env ap ac : reachable (import_module env ap ac)
| reach_step o w : reachable w -> reachable (snd (step o w)).

(** ** Invariants *)

(** Objects that the factory methods and the constructor create: they are
    not adapters, and a new client has no adapter yet. *)
Definition plain_obj (x : obj) : Prop :=
  match x with
  | OClient c => _vision_api_internal c = None
  | OBatch _ | OImage _ _ _ _ => True
  | OGAPICVisionAPI _ | OHTTPVisionAPI _ => False
  end.

Inductive heap_change (o : op) (h : list obj) : list obj -> Prop :=
| hc_same : heap_change o h h
| hc_new x : plain_obj x -> heap_change o h (h ++ [x])
| hc_resolve self c :
    o = GetVisionApi self ->
    h !! self = Some (OClient c) ->
    _vision_api_internal c = None ->
    heap_change o h
      (<[self := OClient (with_vision_api_internal (length h) c)]>
         (h ++ [adapter_for (truthy (_use_gax c)) self]))
| hc_flag self c v :
    o = SetUseGax self v ->
    h !! self = Some (OClient c) ->
    heap_change o h (<[self := OClient (with_use_gax v c)]> h).

(** [self] is a client whose flag has truth value [b], and its cached
    adapter, if any, is of the class that [b] selects. *)
Definition flag_inv (self : loc) (b : bool) (h : list obj) : Prop :=
  exists c,
    h !! self = Some (OClient c)
    /\ truthy (_use_gax c) = b
    /\ forall a, _vision_api_internal c = Some a ->
                 h !! a = Some (adapter_for b self).


(** A sequence of calls in which nobody assigns the transport flag of
    [self] from outside. *)
Definition flag_untouched (self : loc) (os : list op) : bool :=
  forallb (fun o => negb (writes_flag self o)) os.

(** The cached adapter of a client is an adapter object bound to that very
    client. *)
Definition owner_inv (h : list obj) : Prop :=
  forall l c a,
    h !! l = Some (OClient c) ->
    _vision_api_internal c = Some a ->
    exists b, h !! a = Some (adapter_for b l).

(** The calls other than an access to an adapter. *)
Definition no_access (o : op) : bool :=
  match o with
  | GetVisionApi _ => false
  | _ => true
  end.

(** * Properties *)

(** ** Equations of the operations *)

Lemma batch_eq w self c :
  heap w !! self = Some (OClient c) ->
  Client.batch self w
  = Ok (length (heap w), set_heap (heap w ++ [OBatch self]) w).
Proof. intros H. unfold Client.batch, bind, get_client. now rewrite H. Qed.

Lemma image_eq w self c content filename source_uri :
  heap w !! self = Some (OClient c) ->
  Client.image self content filename source_uri w
  = Ok (length (heap w),
        set_heap (heap w ++ [OImage self content filename source_uri]) w).
Proof. intros H. unfold Client.image, bind, get_client. now rewrite H. Qed.

Lemma vision_api_first w self c :
  heap w !! self = Some (OClient c) ->
  _vision_api_internal c = None ->
  Client._vision_api self w
  = Ok (length (heap w),
        set_heap (<[self := OClient (with_vision_api_internal (length (heap w)) c)]>
                    (heap w ++ [adapter_for (truthy (_use_gax c)) self])) w).
Proof.
  intros H Hn. unfold Client._vision_api, bind, get_client.
  rewrite H, Hn. unfold adapter_for. reflexivity.
Qed.

Lemma vision_api_memo w self c a :
  heap w !! self = Some (OClient c) ->
  _vision_api_internal c = Some a ->
  Client._vision_api self w = Ok (a, w).
Proof.
  intros H Hs. unfold Client._vision_api, bind, get_client.
  now rewrite H, Hs.
Qed.

Lemma not_client_raises w self :
  (forall c, heap w !! self <> Some (OClient c)) ->
  Client.batch self w = Raise AttributeError
  /\ (forall c f u, Client.image self c f u w = Raise AttributeError)
  /\ Client._vision_api self w = Raise AttributeError
  /\ (forall v, set_use_gax self v w = Raise AttributeError).
Proof.
  intros H.
  unfold Client.batch, Client.image, Client._vision_api, set_use_gax,
    bind, get_client.
  destruct (heap w !! self) as [[c| | | |]|] eqn:E;
    try (exfalso; apply (H c); reflexivity); auto.
Qed.

Lemma init_cases p c h g w :
  (Client.__init__ p c h g w = Raise AuthenticationResolutionError)
  \/ (exists cl, Client.__init__ p c h g w
                 = Ok (length (heap w), set_heap (heap w ++ [OClient cl]) w)
               /\ _vision_api_internal cl = None
               /\ _use_gax cl = match g with
                                | PyNone => PyBool (_USE_GAX w)
                                | _ => g
                                end).
Proof.
  unfold Client.__init__, ClientWithProject_init, bind, get_world, raise, ret.
  destruct p as [p|]; simpl.
  - destruct c as [c|], h as [h|]; simpl; try (right; eexists; split; [reflexivity|split; reflexivity]).
    destruct (ambient_credentials w); simpl; [right; eexists; split; [reflexivity|split; reflexivity] | now left].
  - destruct (ambient_project w); simpl; [|now left].
    destruct c as [c|], h as [h|]; simpl; try (right; eexists; split; [reflexivity|split; reflexivity]).
    destruct (ambient_credentials w); simpl; [right; eexists; split; [reflexivity|split; reflexivity] | now left].
Qed.

(** ** How one call changes the heap *)

Lemma run_op_cases o w :
  (exists e, run_op o w = Raise e)
  \/ (exists v env h,
        run_op o w = Ok (v, set_environ env (set_heap h w))
        /\ heap_change o (heap w) h).
Proof.
  assert (Hw : forall w0, w0 = set_environ (environ w0) (set_heap (heap w0) w0))
    by (now intros []).
  destruct o as [p c h g|self|self c f u|self|self v|k v|k]; simpl.
  - unfold bind.
    destruct (init_cases p c h g w) as [E|(cl & E & Hn & _)]; rewrite E.
    + left. now eexists.
    + right. eexists _, (environ w), (heap w ++ [OClient cl]).
      split; [reflexivity|]. now apply hc_new.
  - unfold bind.
    destruct (heap w !! self) as [[c| | | |]|] eqn:E;
      try (destruct (not_client_raises w self) as (R & _);
           [intros c'; rewrite E; discriminate|rewrite R; left; now eexists]).
    rewrite (batch_eq _ _ _ E). right.
    eexists _, (environ w), (heap w ++ [OBatch self]).
    split; [reflexivity|]. now apply hc_new.
  - unfold bind.
    destruct (heap w !! self) as [[cl| | | |]|] eqn:E;
      try (destruct (not_client_raises w self) as (_ & R & _);
           [intros c'; rewrite E; discriminate|rewrite R; left; now eexists]).
    rewrite (image_eq _ _ _ _ _ _ E). right.
    eexists _, (environ w), (heap w ++ [OImage self c f u]).
    split; [reflexivity|]. now apply hc_new.
  - unfold bind.
    destruct (heap w !! self) as [[c| | | |]|] eqn:E;
      try (destruct (not_client_raises w self) as (_ & _ & R & _);
           [intros c'; rewrite E; discriminate|rewrite R; left; now eexists]).
    right. destruct (_vision_api_internal c) as [a|] eqn:Hi.
    + rewrite (vision_api_memo _ _ _ _ E Hi).
      eexists _, (environ w), (heap w). split; [|constructor].
      unfold ret. now rewrite <- Hw.
    + rewrite (vision_api_first _ _ _ E Hi).
      eexists _, (environ w), (<[self := _]> (heap w ++ [_])).
      split; [reflexivity|]. now apply hc_resolve.
  - unfold bind.
    destruct (heap w !! self) as [[c| | | |]|] eqn:E;
      try (destruct (not_client_raises w self) as (_ & _ & _ & R);
           [intros c'; rewrite E; discriminate|rewrite R; left; now eexists]).
    right. unfold set_use_gax, bind, get_client, put_client. rewrite E.
    eexists _, (environ w), (<[self := _]> (heap w)). split; [reflexivity|].
    now apply hc_flag with (self := self).
  - right. eexists _, _, (heap w). split; [reflexivity|constructor].
  - right. eexists _, _, (heap w). split; [reflexivity|constructor].
Qed.

Lemma step_heap o w : heap_change o (heap w) (heap (snd (step o w))).
Proof.
  unfold step.
  destruct (run_op_cases o w) as [(e & E)|(v & env & h & E & Hc)]; rewrite E;
    simpl; [constructor|assumption].
Qed.

Lemma step_globals o w :
  _USE_GAX (snd (step o w)) = _USE_GAX w
  /\ ambient_project (snd (step o w)) = ambient_project w
  /\ ambient_credentials (snd (step o w)) = ambient_credentials w.
Proof.
  unfold step.
  destruct (run_op_cases o w) as [(e & E)|(v & env & h & E & Hc)]; rewrite E;
    simpl; repeat split; reflexivity.
Qed.


(** A client stays a client at its address; a call changes at most its
    transport flag (an assignment from outside) or its cached adapter (the
    first access). *)
Lemma heap_change_client o h h' l c :
  heap_change o h h' ->
  h !! l = Some (OClient c) ->
  exists c',
    h' !! l = Some (OClient c')
    /\ project c' = project c
    /\ credentials c' = credentials c
    /\ http c' = http c
    /\ (_use_gax c' = _use_gax c \/ exists v, o = SetUseGax l v)
    /\ (_vision_api_internal c' = _vision_api_internal c
        \/ (o = GetVisionApi l
            /\ _vision_api_internal c = None
            /\ _vision_api_internal c' = Some (length h)
            /\ h' !! length h = Some (adapter_for (truthy (_use_gax c)) l))).
Proof.
  intros Hc Hl. pose proof (lookup_lt_Some _ _ _ Hl) as Hlt.
  destruct Hc as [ |x Hx|self c0 Ho Hs Hn|self c0 v Ho Hs].
  - exists c. repeat split; auto.
  - exists c. rewrite lookup_app_l by assumption. repeat split; auto.
  - destruct (decide (self = l)) as [->|Hne].
    + rewrite Hl in Hs. injection Hs as <-.
      exists (with_vision_api_internal (length h) c).
      rewrite list_lookup_insert_eq by (rewrite length_app; simpl; lia).
      repeat split; auto. right. repeat split; auto.
      rewrite list_lookup_insert_ne by lia.
      now rewrite lookup_app_r, Nat.sub_diag by lia.
    + exists c. rewrite list_lookup_insert_ne by assumption.
      rewrite lookup_app_l by assumption. repeat split; auto.
  - destruct (decide (self = l)) as [->|Hne].
    + rewrite Hl in Hs. injection Hs as <-.
      exists (with_use_gax v c).
      rewrite list_lookup_insert_eq by assumption.
      repeat split; eauto.
    + exists c. rewrite list_lookup_insert_ne by assumption.
      repeat split; auto.
Qed.

(** Every other object is immutable. *)
Lemma heap_change_other o h h' l x :
  heap_change o h h' ->
  h !! l = Some x ->
  (forall c, x <> OClient c) ->
  h' !! l = Some x.
Proof.
  intros Hc Hl Hx. pose proof (lookup_lt_Some _ _ _ Hl) as Hlt.
  destruct Hc as [ |y Hy|self c0 Ho Hs Hn|self c0 v Ho Hs].
  - assumption.
  - now rewrite lookup_app_l.
  - rewrite list_lookup_insert_ne, lookup_app_l; auto.
    intros E. apply (Hx c0). congruence.
  - rewrite list_lookup_insert_ne; auto.
    intros E. apply (Hx c0). congruence.
Qed.

(** ** Sequences of calls *)

Lemma exec_cons o os w :
  exec (o :: os) w
  = (fst (step o w) :: fst (exec os (snd (step o w))),
     snd (exec os (snd (step o w)))).
Proof.
  simpl. destruct (step o w) as [r w1]. simpl.
  now destruct (exec os w1) as [rs w2].
Qed.


Lemma exec_reachable os w : reachable w -> reachable (snd (exec os w)).
Proof.
  revert w. induction os as [|o os IH]; intros w Hw; [assumption|].
  rewrite exec_cons. simpl. apply IH. now constructor.
Qed.

Lemma exec_globals os w :
  _USE_GAX (snd (exec os w)) = _USE_GAX w
  /\ ambient_project (snd (exec os w)) = ambient_project w
  /\ ambient_credentials (snd (exec os w)) = ambient_credentials w.
Proof.
  revert w. induction os as [|o os IH]; intros w; [now repeat split|].
  rewrite exec_cons. simpl.
  destruct (IH (snd (step o w))) as (-> & -> & ->). apply step_globals.
Qed.


Lemma exec_other os w l x :
  heap w !! l = Some x ->
  (forall c, x <> OClient c) ->
  heap (snd (exec os w)) !! l = Some x.
Proof.
  revert w. induction os as [|o os IH]; intros w Hl Hx; [assumption|].
  rewrite exec_cons. simpl. apply IH; [|assumption].
  eapply heap_change_other; eauto using step_heap.
Qed.

(** Over any sequence of calls a client keeps its address, its project,
    credentials and http object, and a cached adapter once it has one. *)
Lemma exec_client os w l c :
  heap w !! l = Some (OClient c) ->
  exists c',
    heap (snd (exec os w)) !! l = Some (OClient c')
    /\ project c' = project c
    /\ credentials c' = credentials c
    /\ http c' = http c
    /\ (forall a, _vision_api_internal c = Some a ->
                  _vision_api_internal c' = Some a).
Proof.
  revert w c. induction os as [|o os IH]; intros w c Hl.
  - exists c. now repeat split.
  - rewrite exec_cons. simpl.
    destruct (heap_change_client _ _ _ _ _ (step_heap o w) Hl)
      as (c1 & Hl1 & Hp & Hcr & Hh & _ & Hi).
    destruct (IH _ _ Hl1) as (c2 & Hl2 & Hp2 & Hcr2 & Hh2 & Hi2).
    exists c2. repeat split; try congruence.
    intros a Ha. apply Hi2.
    destruct Hi as [Hi|(_ & Hi & _)]; congruence.
Qed.

Lemma is_access_true self o : is_access self o = true <-> o = GetVisionApi self.
Proof.
  destruct o; simpl; try (split; [discriminate|discriminate]).
  rewrite bool_decide_eq_true. split; [now intros ->|now intros [= ->]].
Qed.

Lemma step_access_memo w self c a :
  heap w !! self = Some (OClient c) ->
  _vision_api_internal c = Some a ->
  step (GetVisionApi self) w = (Ok (PyRef a), w).
Proof.
  intros H Hi. unfold step. simpl. unfold bind.
  now rewrite (vision_api_memo _ _ _ _ H Hi).
Qed.

Lemma step_access_first w self c :
  heap w !! self = Some (OClient c) ->
  _vision_api_internal c = None ->
  step (GetVisionApi self) w
  = (Ok (PyRef (length (heap w))),
     set_heap (<[self := OClient (with_vision_api_internal (length (heap w)) c)]>
                 (heap w ++ [adapter_for (truthy (_use_gax c)) self])) w).
Proof.
  intros H Hi. unfold step. simpl. unfold bind.
  now rewrite (vision_api_first _ _ _ H Hi).
Qed.

(** ** The transport flag decides the adapter class *)

Lemma adapter_for_not_client b self c : adapter_for b self <> OClient c.
Proof. now destruct b. Qed.

Lemma heap_change_flag_inv o h h' self b :
  heap_change o h h' ->
  writes_flag self o = false ->
  flag_inv self b h -> flag_inv self b h'.
Proof.
  intros Hc Hw (c & Hl & Hb & Ha).
  destruct (heap_change_client _ _ _ _ _ Hc Hl)
    as (c' & Hl' & _ & _ & _ & Hf & Hi).
  exists c'. split; [assumption|].
  assert (Hg : _use_gax c' = _use_gax c).
  { destruct Hf as [Hf|(v & ->)]; [assumption|].
    simpl in Hw. now rewrite bool_decide_eq_false in Hw. }
  split; [congruence|].
  intros a Ha'. destruct Hi as [Hi|(_ & Hn & Hs & Hnew)].
  - eapply heap_change_other; eauto.
    + apply Ha. congruence.
    + intros c0. apply adapter_for_not_client.
  - rewrite Hs in Ha'. injection Ha' as <-. now rewrite Hnew, Hb.
Qed.

Lemma exec_flag_inv os w self b :
  forallb (fun o => negb (writes_flag self o)) os = true ->
  flag_inv self b (heap w) ->
  flag_inv self b (heap (snd (exec os w))).
Proof.
  revert w. induction os as [|o os IH]; intros w Hos Hinv; [assumption|].
  simpl in Hos. apply andb_true_iff in Hos as [Ho Hos].
  apply negb_true_iff in Ho.
  rewrite exec_cons. simpl. apply IH; [assumption|].
  eapply heap_change_flag_inv; eauto using step_heap.
Qed.

Lemma flag_inv_access w self b :
  flag_inv self b (heap w) ->
  exists a w',
    Client._vision_api self w = Ok (a, w')
    /\ heap w' !! a = Some (adapter_for b self).
Proof.
  intros (c & Hl & Hb & Ha).
  destruct (_vision_api_internal c) as [a|] eqn:Hi.
  - exists a, w. split; [now apply vision_api_memo with c|now apply Ha].
  - eexists _, _. split; [apply (vision_api_first _ _ _ Hl Hi)|]. simpl.
    pose proof (lookup_lt_Some _ _ _ Hl) as Hlt.
    rewrite list_lookup_insert_ne by lia.
    now rewrite lookup_app_r, Nat.sub_diag, Hb by lia.
Qed.

Lemma init_ok p c h g w self w1 :
  Client.__init__ p c h g w = Ok (self, w1) ->
  exists cl,
    self = length (heap w)
    /\ w1 = set_heap (heap w ++ [OClient cl]) w
    /\ _vision_api_internal cl = None
    /\ _use_gax cl = match g with
                     | PyNone => PyBool (_USE_GAX w)
                     | _ => g
                     end.
Proof.
  intros H. destruct (init_cases p c h g w) as [E|(cl & E & Hn & Hg)];
    rewrite E in H; [discriminate|].
  injection H as <- <-. now exists cl.
Qed.

Lemma init_lookup p c h g w self w1 :
  Client.__init__ p c h g w = Ok (self, w1) ->
  exists cl,
    heap w1 !! self = Some (OClient cl)
    /\ _vision_api_internal cl = None
    /\ _use_gax cl = match g with
                     | PyNone => PyBool (_USE_GAX w)
                     | _ => g
                     end.
Proof.
  intros H. destruct (init_ok _ _ _ _ _ _ _ H) as (cl & -> & -> & Hn & Hg).
  exists cl. split; [|now split]. simpl.
  now rewrite lookup_app_r, Nat.sub_diag by lia.
Qed.

Lemma init_flag_inv p c h g w self w1 :
  Client.__init__ p c h g w = Ok (self, w1) ->
  flag_inv self
    (truthy (match g with PyNone => PyBool (_USE_GAX w) | _ => g end))
    (heap w1).
Proof.
  intros H. destruct (init_lookup _ _ _ _ _ _ _ H) as (cl & Hl & Hn & Hg).
  exists cl. split; [assumption|]. split; [now rewrite Hg|].
  intros a Ha. congruence.
Qed.

(** ** Memoisation along a sequence of calls *)



(** ** Counting the adapters of a client *)

Lemma count_app self h x :
  length (List.filter (is_adapter_of self) (h ++ [x]))
  = length (List.filter (is_adapter_of self) h)
    + (if is_adapter_of self x then 1 else 0).
Proof.
  rewrite List.filter_app, length_app. simpl.
  now destruct (is_adapter_of self x).
Qed.

Lemma count_insert_client self h l c c' :
  h !! l = Some (OClient c) ->
  List.filter (is_adapter_of self) (<[l := OClient c']> h)
  = List.filter (is_adapter_of self) h.
Proof.
  revert l. induction h as [|x h IH]; intros l Hl; [reflexivity|].
  destruct l as [|l]; simpl in *.
  - now injection Hl as ->.
  - now rewrite (IH _ Hl).
Qed.


Lemma plain_obj_not_adapter self x : plain_obj x -> is_adapter_of self x = false.
Proof. now destruct x. Qed.



(** * The claims *)

(** C1.  A client constructed with [use_gax=True] resolves to the gRPC
    adapter: in whatever world it is constructed (whatever the environment
    holds and whatever [_USE_GAX] was computed to be), and after whatever
    calls follow that leave its flag alone, [_vision_api] returns a
    [_GAPICVisionAPI] bound to it. *)
Theorem use_gax_true_selects_gapic w p c h self w1 os :
  Client.__init__ p c h (PyBool true) w = Ok (self, w1) ->
  flag_untouched self os = true ->
  exists a w',
    Client._vision_api self (snd (exec os w1)) = Ok (a, w')
    /\ heap w' !! a = Some (OGAPICVisionAPI self).
Proof.
  intros Hinit Hos.
  apply (flag_inv_access _ self true).
  apply exec_flag_inv; [assumption|].
  apply (init_flag_inv _ _ _ _ _ _ _ Hinit).
Qed.

Lemma use_gax_true_selects_gapic_witness :
  let w := import_module {[DISABLE_GRPC := "1"]} None (Some (Cred 7)) in
  let cl := {| project := "proj"; credentials := Some (Cred 7); http := None;
               _use_gax := PyBool true; _vision_api_internal := None |} in
  exists a w',
    Client._vision_api 0
      (snd (exec [CallBatch 0; DelEnv DISABLE_GRPC]
                 (set_heap [OClient cl] w))) = Ok (a, w')
    /\ heap w' !! a = Some (OGAPICVisionAPI 0).
Proof.
  apply (use_gax_true_selects_gapic
           (import_module {[DISABLE_GRPC := "1"]} None (Some (Cred 7)))
           (Some "proj") None None 0 _ [CallBatch 0; DelEnv DISABLE_GRPC]);
    reflexivity.
Defined.

(** C2.  A client constructed with [use_gax=False] resolves to the HTTP
    adapter, likewise whatever the environment holds. *)
Theorem use_gax_false_selects_http w p c h self w1 os :
  Client.__init__ p c h (PyBool false) w = Ok (self, w1) ->
  flag_untouched self os = true ->
  exists a w',
    Client._vision_api self (snd (exec os w1)) = Ok (a, w')
    /\ heap w' !! a = Some (OHTTPVisionAPI self).
Proof.
  intros Hinit Hos.
  apply (flag_inv_access _ self false).
  apply exec_flag_inv; [assumption|].
  apply (init_flag_inv _ _ _ _ _ _ _ Hinit).
Qed.

Lemma use_gax_false_selects_http_witness :
  let w := import_module ∅ (Some "proj") (Some (Cred 7)) in
  let cl := {| project := "proj"; credentials := Some (Cred 7); http := None;
               _use_gax := PyBool false; _vision_api_internal := None |} in
  exists a w',
    Client._vision_api 0
      (snd (exec [GetVisionApi 0; SetEnv DISABLE_GRPC "1"]
                 (set_heap [OClient cl] w))) = Ok (a, w')
    /\ heap w' !! a = Some (OHTTPVisionAPI 0).
Proof.
  apply (use_gax_false_selects_http
           (import_module ∅ (Some "proj") (Some (Cred 7)))
           None None None 0 _ [GetVisionApi 0; SetEnv DISABLE_GRPC "1"]);
    reflexivity.
Defined.

Lemma import_USE_GAX env ap ac os :
  _USE_GAX (snd (exec os (import_module env ap ac)))
  = py_not (os_getenv env DISABLE_GRPC (PyBool false)).
Proof. now destruct (exec_globals os (import_module env ap ac)) as (-> & _). Qed.

(** With [use_gax] unset, the adapter follows the value [_USE_GAX] got when
    the module was imported with environment [env], whatever calls were made
    before the client is constructed and after. *)
Lemma unset_follows_import env ap ac os0 p c h self w1 os :
  Client.__init__ p c h PyNone (snd (exec os0 (import_module env ap ac)))
  = Ok (self, w1) ->
  flag_untouched self os = true ->
  exists a w',
    Client._vision_api self (snd (exec os w1)) = Ok (a, w')
    /\ heap w' !! a
       = Some (adapter_for (py_not (os_getenv env DISABLE_GRPC (PyBool false)))
                           self).
Proof.
  intros Hinit Hos.
  apply flag_inv_access, exec_flag_inv; [assumption|].
  pose proof (init_flag_inv _ _ _ _ _ _ _ Hinit) as Hinv.
  simpl in Hinv. now rewrite import_USE_GAX in Hinv.
Qed.

(** C3, as stated, fails on two inputs.  A variable that is present with
    the empty string does not disable gRPC; and a variable that is set when
    the client is constructed, but was not when the module was imported, does
    not either.  Both clients get the gRPC adapter. *)
Lemma env_toggle_counterexample :
  (let w := import_module {[DISABLE_GRPC := EmptyString]}
                          (Some "proj") (Some (Cred 7)) in
   let r := exec [NewClient None None None PyNone; GetVisionApi 0] w in
   environ w !! DISABLE_GRPC = Some EmptyString
   /\ fst r = [Ok (PyRef 0); Ok (PyRef 1)]
   /\ heap (snd r) !! 1 = Some (OGAPICVisionAPI 0))
  /\
  (let w := snd (exec [SetEnv DISABLE_GRPC "1"]
                      (import_module ∅ (Some "proj") (Some (Cred 7)))) in
   let r := exec [NewClient None None None PyNone; GetVisionApi 0] w in
   environ w !! DISABLE_GRPC = Some "1"
   /\ fst r = [Ok (PyRef 0); Ok (PyRef 1)]
   /\ heap (snd r) !! 1 = Some (OGAPICVisionAPI 0)).
Proof. vm_compute. repeat split. Qed.

(** C3, amended.  With [use_gax] unset, the environment as it was when the
    module was imported decides: a non-empty value of the variable gives the
    HTTP adapter, an absent variable or an empty value gives the gRPC
    adapter. *)
Theorem env_toggle_at_import env ap ac os0 p c h self w1 os :
  Client.__init__ p c h PyNone (snd (exec os0 (import_module env ap ac)))
  = Ok (self, w1) ->
  flag_untouched self os = true ->
  exists a w',
    Client._vision_api self (snd (exec os w1)) = Ok (a, w')
    /\ (forall ch s, env !! DISABLE_GRPC = Some (String ch s) ->
                     heap w' !! a = Some (OHTTPVisionAPI self))
    /\ (env !! DISABLE_GRPC = None \/ env !! DISABLE_GRPC = Some EmptyString ->
        heap w' !! a = Some (OGAPICVisionAPI self)).
Proof.
  intros Hinit Hos.
  destruct (unset_follows_import _ _ _ _ _ _ _ _ _ _ Hinit Hos)
    as (a & w' & Hacc & Hl).
  exists a, w'. split; [assumption|]. unfold os_getenv in Hl. split.
  - intros ch s E. now rewrite E in Hl.
  - intros [E|E]; now rewrite E in Hl.
Qed.

Lemma env_toggle_at_import_witness :
  let w := import_module {[DISABLE_GRPC := "true"]} (Some "proj") (Some (Cred 7)) in
  let cl := {| project := "proj"; credentials := Some (Cred 7); http := None;
               _use_gax := PyBool false; _vision_api_internal := None |} in
  exists a w',
    Client._vision_api 0
      (snd (exec [CallImage 0 None (Some "x.png") None]
                 (set_heap [OClient cl] (set_environ ∅ w)))) = Ok (a, w')
    /\ (forall ch s,
          ({[DISABLE_GRPC := "true"]} : gmap string string) !! DISABLE_GRPC
          = Some (String ch s) ->
          heap w' !! a = Some (OHTTPVisionAPI 0))
    /\ (({[DISABLE_GRPC := "true"]} : gmap string string) !! DISABLE_GRPC = None
        \/ ({[DISABLE_GRPC := "true"]} : gmap string string) !! DISABLE_GRPC
           = Some EmptyString ->
        heap w' !! a = Some (OGAPICVisionAPI 0)).
Proof.
  apply (env_toggle_at_import {[DISABLE_GRPC := "true"]}
           (Some "proj") (Some (Cred 7)) [DelEnv DISABLE_GRPC]
           None None None 0 _ [CallImage 0 None (Some "x.png") None]).
  - vm_compute. reflexivity.
  - reflexivity.
Defined.

(** C9.  The variable is read once, when the module is imported: a client
    constructed with [use_gax] unset, after any calls and any changes of the
    environment that followed the import, has the flag [_USE_GAX] computed
    from the environment of the import, and resolves to the adapter that
    this flag selects. *)
Theorem toggle_read_at_import env ap ac os0 p c h self w1 :
  Client.__init__ p c h PyNone (snd (exec os0 (import_module env ap ac)))
  = Ok (self, w1) ->
  (exists cl,
     heap w1 !! self = Some (OClient cl)
     /\ _use_gax cl
        = PyBool (py_not (os_getenv env DISABLE_GRPC (PyBool false))))
  /\ (forall os,
        flag_untouched self os = true ->
        exists a w',
          Client._vision_api self (snd (exec os w1)) = Ok (a, w')
          /\ heap w' !! a
             = Some (adapter_for
                       (py_not (os_getenv env DISABLE_GRPC (PyBool false)))
                       self)).
Proof.
  intros Hinit. split.
  - destruct (init_lookup _ _ _ _ _ _ _ Hinit) as (cl & Hl & _ & Hg).
    exists cl. split; [assumption|]. now rewrite Hg, import_USE_GAX.
  - intros os Hos. now apply (unset_follows_import _ _ _ _ _ _ _ _ _ _ Hinit).
Qed.

Lemma toggle_read_at_import_witness :
  let env : gmap string string := {[DISABLE_GRPC := "1"]} in
  let w := snd (exec [DelEnv DISABLE_GRPC] (import_module env (Some "proj") None)) in
  let cl := {| project := "proj"; credentials := Some (Cred 3); http := None;
               _use_gax := PyBool false; _vision_api_internal := None |} in
  environ w !! DISABLE_GRPC = None
  /\ (exists cl',
        heap (set_heap [OClient cl] w) !! 0 = Some (OClient cl')
        /\ _use_gax cl' = PyBool false).
Proof.
  split; [vm_compute; reflexivity|].
  refine (proj1 (toggle_read_at_import {[DISABLE_GRPC := "1"]} (Some "proj") None
           [DelEnv DISABLE_GRPC] None (Some (Cred 3)) None 0
           (set_heap
              [OClient {| project := "proj"; credentials := Some (Cred 3);
                          http := None; _use_gax := PyBool false;
                          _vision_api_internal := None |}]
              (snd (exec [DelEnv DISABLE_GRPC]
                         (import_module {[DISABLE_GRPC := "1"]}
                                        (Some "proj") None)))) _)).
  vm_compute. reflexivity.
Defined.


Lemma client_state_Some self w s :
  client_state self w = Some s <->
  exists c, heap w !! self = Some (OClient c)
            /\ s = match _vision_api_internal c with
                   | None => AdapterUnresolved
                   | Some a => AdapterResolved a
                   end.
Proof.
  unfold client_state. split.
  - destruct (heap w !! self) as [[c| | | |]|]; try discriminate.
    intros [= <-]. now exists c.
  - intros (c & -> & ->). reflexivity.
Qed.



(** C5.  The cached adapter is a memo, not a refreshable cache.  Once a
    client is in the resolved state with adapter [a], it stays there over
    every sequence of calls, assignments of the flag and changes of the
    environment included, and the accessor keeps returning [a] without
    touching the world.  An unresolved client becomes resolved by an access
    to its adapter, and by nothing else. *)
Theorem cached_adapter_is_permanent w self s :
  client_state self w = Some s ->
  (forall a, s = AdapterResolved a ->
     forall os,
       client_state self (snd (exec os w)) = Some (AdapterResolved a)
       /\ step (GetVisionApi self) (snd (exec os w))
          = (Ok (PyRef a), snd (exec os w)))
  /\ (s = AdapterUnresolved ->
      exists a,
        fst (step (GetVisionApi self) w) = Ok (PyRef a)
        /\ client_state self (snd (step (GetVisionApi self) w))
           = Some (AdapterResolved a))
  /\ (forall o, is_access self o = false ->
                client_state self (snd (step o w)) = Some s).
Proof.
  intros Hs. apply client_state_Some in Hs as (c & Hl & ->). repeat split.
  - destruct (_vision_api_internal c) as [a'|] eqn:Hi; [|discriminate].
    injection H as <-.
    destruct (exec_client os _ _ _ Hl) as (c' & Hl' & _ & _ & _ & Hk).
    apply client_state_Some. exists c'. split; [assumption|].
    now rewrite (Hk _ Hi).
  - destruct (_vision_api_internal c) as [a'|] eqn:Hi; [|discriminate].
    injection H as <-.
    destruct (exec_client os _ _ _ Hl) as (c' & Hl' & _ & _ & _ & Hk).
    apply (step_access_memo _ _ c'); auto.
  - intros Hu. destruct (_vision_api_internal c) eqn:Hi; [discriminate|].
    exists (length (heap w)). rewrite (step_access_first _ _ _ Hl Hi).
    split; [reflexivity|]. apply client_state_Some. simpl.
    pose proof (lookup_lt_Some _ _ _ Hl) as Hlt.
    eexists. split.
    + apply list_lookup_insert_eq. rewrite length_app. simpl. lia.
    + reflexivity.
  - intros o Ho.
    destruct (heap_change_client _ _ _ _ _ (step_heap o w) Hl)
      as (c1 & Hl1 & _ & _ & _ & _ & Hi1).
    apply client_state_Some. exists c1. split; [assumption|].
    destruct Hi1 as [->|(E & _)]; [reflexivity|].
    apply is_access_true in E. congruence.
Qed.

Lemma cached_adapter_is_permanent_witness :
  let cl := {| project := "proj"; credentials := Some (Cred 7); http := None;
               _use_gax := PyBool true; _vision_api_internal := Some 1 |} in
  let w := set_heap [OClient cl; OGAPICVisionAPI 0]
                    (import_module ∅ (Some "proj") (Some (Cred 7))) in
  let os := [SetUseGax 0 (PyBool false); SetEnv DISABLE_GRPC "1";
             CallBatch 0; GetVisionApi 0] in
  client_state 0 (snd (exec os w)) = Some (AdapterResolved 1)
  /\ step (GetVisionApi 0) (snd (exec os w)) = (Ok (PyRef 1), snd (exec os w)).
Proof.
  apply (proj1 (cached_adapter_is_permanent
                  (set_heap
                     [OClient {| project := "proj";
                                 credentials := Some (Cred 7); http := None;
                                 _use_gax := PyBool true;
                                 _vision_api_internal := Some 1 |};
                      OGAPICVisionAPI 0]
                     (import_module ∅ (Some "proj") (Some (Cred 7))))
                  0 (AdapterResolved 1) eq_refl) 1 eq_refl).
Defined.



(** C7.  [batch()] creates a [Batch] bound to the client at a fresh
    address and changes nothing else; a later call, after whatever happened
    in between, returns a different [Batch], and both are bound to the same
    client, which is still there. *)
Theorem batch_returns_fresh_batch w self c :
  heap w !! self = Some (OClient c) ->
  Client.batch self w
  = Ok (length (heap w), set_heap (heap w ++ [OBatch self]) w)
  /\ forall os,
       let w2 := snd (exec os (set_heap (heap w ++ [OBatch self]) w)) in
       exists b2 w3,
         Client.batch self w2 = Ok (b2, w3)
         /\ b2 <> length (heap w)
         /\ heap w3 !! length (heap w) = Some (OBatch self)
         /\ heap w3 !! b2 = Some (OBatch self)
         /\ exists c', heap w3 !! self = Some (OClient c').
Proof.
  intros Hl. split; [now apply batch_eq with c|].
  intros os w2. pose proof (lookup_lt_Some _ _ _ Hl) as Hlt.
  set (w1 := set_heap (heap w ++ [OBatch self]) w) in *.
  assert (Hl1 : heap w1 !! self = Some (OClient c))
    by (simpl; now rewrite lookup_app_l).
  assert (Hb1 : heap w1 !! length (heap w) = Some (OBatch self))
    by (simpl; now rewrite lookup_app_r, Nat.sub_diag by lia).
  destruct (exec_client os _ _ _ Hl1) as (c' & Hl2 & _).
  pose proof (exec_other os _ _ _ Hb1 ltac:(discriminate)) as Hb2.
  fold w2 in Hl2, Hb2.
  pose proof (lookup_lt_Some _ _ _ Hb2) as Hlt2.
  pose proof (lookup_lt_Some _ _ _ Hl2) as Hlt3.
  exists (length (heap w2)), (set_heap (heap w2 ++ [OBatch self]) w2).
  split; [now apply batch_eq with c'|]. simpl.
  split; [lia|]. split; [now rewrite lookup_app_l|].
  split; [now rewrite lookup_app_r, Nat.sub_diag by lia|].
  exists c'. now rewrite lookup_app_l.
Qed.

Lemma batch_returns_fresh_batch_witness :
  let cl := {| project := "proj"; credentials := Some (Cred 7); http := None;
               _use_gax := PyBool true; _vision_api_internal := None |} in
  let w := set_heap [OClient cl] (import_module ∅ (Some "proj") (Some (Cred 7))) in
  Client.batch 0 w = Ok (1, set_heap [OClient cl; OBatch 0] w).
Proof.
  apply (proj1 (batch_returns_fresh_batch
                  (set_heap
                     [OClient {| project := "proj";
                                 credentials := Some (Cred 7); http := None;
                                 _use_gax := PyBool true;
                                 _vision_api_internal := None |}]
                     (import_module ∅ (Some "proj") (Some (Cred 7))))
                  0 _ eq_refl)).
Defined.

(** C8.  [image(...)] succeeds on every client and for every combination
    of the three optional inputs, whether none, one or several are given:
    it creates, at a fresh address, an [Image] bound to the client that
    carries the three values exactly as passed, and changes nothing else. *)
Theorem image_passes_inputs_through w self c content filename source_uri :
  heap w !! self = Some (OClient c) ->
  let w' := set_heap (heap w ++ [OImage self content filename source_uri]) w in
  Client.image self content filename source_uri w = Ok (length (heap w), w')
  /\ heap w' !! length (heap w)
     = Some (OImage self content filename source_uri)
  /\ heap w' !! self = Some (OClient c).
Proof.
  intros Hl w'. pose proof (lookup_lt_Some _ _ _ Hl) as Hlt.
  split; [now apply image_eq with c|]. subst w'. simpl. split.
  - now rewrite lookup_app_r, Nat.sub_diag by lia.
  - now rewrite lookup_app_l.
Qed.

Lemma image_passes_inputs_through_witness :
  let cl := {| project := "proj"; credentials := Some (Cred 7); http := None;
               _use_gax := PyBool true; _vision_api_internal := None |} in
  let w := set_heap [OClient cl] (import_module ∅ (Some "proj") (Some (Cred 7))) in
  (Client.image 0 (Some [x89; x50]) None None w
   = Ok (1, set_heap [OClient cl; OImage 0 (Some [x89; x50]) None None] w))
  /\ (Client.image 0 None (Some "x.png") None w
      = Ok (1, set_heap [OClient cl; OImage 0 None (Some "x.png") None] w))
  /\ (Client.image 0 None None (Some "gs://bucket/x.png") w
      = Ok (1, set_heap [OClient cl;
                         OImage 0 None None (Some "gs://bucket/x.png")] w))
  /\ (Client.image 0 (Some [x89]) (Some "x.png") (Some "gs://bucket/x.png") w
      = Ok (1, set_heap [OClient cl;
                         OImage 0 (Some [x89]) (Some "x.png")
                                (Some "gs://bucket/x.png")] w)).
Proof.
  pose (w := set_heap
               [OClient {| project := "proj"; credentials := Some (Cred 7);
                           http := None; _use_gax := PyBool true;
                           _vision_api_internal := None |}]
               (import_module ∅ (Some "proj") (Some (Cred 7)))).
  split; [|split; [|split]].
  - apply (proj1 (image_passes_inputs_through w 0 _ (Some [x89; x50]) None None
                    eq_refl)).
  - apply (proj1 (image_passes_inputs_through w 0 _ None (Some "x.png") None
                    eq_refl)).
  - apply (proj1 (image_passes_inputs_through w 0 _ None None
                    (Some "gs://bucket/x.png") eq_refl)).
  - apply (proj1 (image_passes_inputs_through w 0 _ (Some [x89]) (Some "x.png")
                    (Some "gs://bucket/x.png") eq_refl)).
Defined.

(** C10.  Frame condition.  A call of [batch], [image] or the accessor,
    on whichever client, leaves the project, the credentials, the http
    object and the transport flag of every client as they were.  The cached
    adapter of a client changes only by an access to that client's adapter
    made while the field was still unset. *)
Theorem facade_ops_frame w o l c :
  facade_op o = true ->
  heap w !! l = Some (OClient c) ->
  exists c',
    heap (snd (step o w)) !! l = Some (OClient c')
    /\ project c' = project c
    /\ credentials c' = credentials c
    /\ http c' = http c
    /\ _use_gax c' = _use_gax c
    /\ (_vision_api_internal c' = _vision_api_internal c
        \/ (o = GetVisionApi l
            /\ _vision_api_internal c = None
            /\ _vision_api_internal c' = Some (length (heap w)))).
Proof.
  intros Ho Hl.
  destruct (heap_change_client _ _ _ _ _ (step_heap o w) Hl)
    as (c' & Hl' & Hp & Hc & Hh & Hf & Hi).
  exists c'. split; [assumption|]. repeat (split; [assumption|]). split.
  - destruct Hf as [Hf|(v & ->)]; [assumption|discriminate].
  - destruct Hi as [Hi|(E & Hn & Hs & _)]; [now left|right; now repeat split].
Qed.

Lemma facade_ops_frame_witness :
  let cl := {| project := "proj"; credentials := Some (Cred 7); http := None;
               _use_gax := PyBool false; _vision_api_internal := None |} in
  let w := set_heap [OClient cl] (import_module ∅ (Some "proj") (Some (Cred 7))) in
  exists c',
    heap (snd (step (GetVisionApi 0) w)) !! 0 = Some (OClient c')
    /\ project c' = "proj"
    /\ credentials c' = Some (Cred 7)
    /\ http c' = None
    /\ _use_gax c' = PyBool false
    /\ (_vision_api_internal c' = None
        \/ (GetVisionApi 0 = GetVisionApi 0
            /\ @None nat = None
            /\ _vision_api_internal c' = Some 1)).
Proof.
  apply (facade_ops_frame
           (set_heap
              [OClient {| project := "proj"; credentials := Some (Cred 7);
                          http := None; _use_gax := PyBool false;
                          _vision_api_internal := None |}]
              (import_module ∅ (Some "proj") (Some (Cred 7))))
           (GetVisionApi 0) 0 _ eq_refl eq_refl).
Defined.

(** * Further properties of the class *)

(** ** The transport flag *)



Lemma step_set_use_gax w self c v :
  heap w !! self = Some (OClient c) ->
  step (SetUseGax self v) w
  = (Ok PyNone, set_heap (<[self := OClient (with_use_gax v c)]> (heap w)) w).
Proof.
  intros H. unfold step. simpl.
  unfold bind, set_use_gax, bind, get_client, put_client. now rewrite H.
Qed.

(** X2.  The flag is read at the first access, not at construction: as
    long as the client is unresolved, assigning [_use_gax] decides the class
    of the adapter that the next access constructs and all later accesses
    return. *)
Theorem flag_read_at_first_access w self v os :
  client_state self w = Some AdapterUnresolved ->
  flag_untouched self os = true ->
  exists a w',
    Client._vision_api self
      (snd (exec os (snd (step (SetUseGax self v) w)))) = Ok (a, w')
    /\ heap w' !! a = Some (adapter_for (truthy v) self).
Proof.
  intros Hs Hos. apply client_state_Some in Hs as (c & Hl & Hs).
  destruct (_vision_api_internal c) eqn:Hi; [discriminate|].
  apply flag_inv_access, exec_flag_inv; [assumption|].
  rewrite (step_set_use_gax _ _ _ _ Hl). simpl.
  exists (with_use_gax v c). split.
  - apply list_lookup_insert_eq. now apply lookup_lt_Some in Hl.
  - split; [reflexivity|]. simpl. congruence.
Qed.

Lemma flag_read_at_first_access_witness :
  let cl := {| project := "proj"; credentials := Some (Cred 7); http := None;
               _use_gax := PyBool true; _vision_api_internal := None |} in
  let w := set_heap [OClient cl] (import_module ∅ (Some "proj") (Some (Cred 7))) in
  exists a w',
    Client._vision_api 0
      (snd (exec [GetVisionApi 0; CallBatch 0]
                 (snd (step (SetUseGax 0 (PyBool false)) w)))) = Ok (a, w')
    /\ heap w' !! a = Some (OHTTPVisionAPI 0).
Proof.
  apply (flag_read_at_first_access
           (set_heap
              [OClient {| project := "proj"; credentials := Some (Cred 7);
                          http := None; _use_gax := PyBool true;
                          _vision_api_internal := None |}]
              (import_module ∅ (Some "proj") (Some (Cred 7))))
           0 (PyBool false) [GetVisionApi 0; CallBatch 0]);
    reflexivity.
Defined.

(** X3.  All clients of a process that are constructed with [use_gax]
    unset get the same flag, whatever happens between the two
    constructions: [_USE_GAX] is never written. *)
Theorem default_clients_agree w p c h self w1 os p' c' h' self' w2 :
  Client.__init__ p c h PyNone w = Ok (self, w1) ->
  Client.__init__ p' c' h' PyNone (snd (exec os w1)) = Ok (self', w2) ->
  exists cl cl',
    heap w1 !! self = Some (OClient cl)
    /\ heap w2 !! self' = Some (OClient cl')
    /\ _use_gax cl = _use_gax cl'
    /\ self <> self'.
Proof.
  intros H1 H2.
  destruct (init_lookup _ _ _ _ _ _ _ H1) as (cl & Hl & _ & Hf).
  destruct (init_lookup _ _ _ _ _ _ _ H2) as (cl' & Hl' & _ & Hf').
  exists cl, cl'. repeat (split; [assumption|]). split.
  - rewrite Hf, Hf'. f_equal.
    destruct (exec_globals os w1) as (-> & _).
    destruct (init_ok _ _ _ _ _ _ _ H1) as (? & _ & -> & _). reflexivity.
  - destruct (init_ok _ _ _ _ _ _ _ H2) as (? & -> & _).
    destruct (exec_client os _ _ _ Hl) as (c2 & Hl2 & _).
    apply lookup_lt_Some in Hl2. lia.
Qed.

Lemma default_clients_agree_witness :
  let w := import_module {[DISABLE_GRPC := "1"]} (Some "proj") (Some (Cred 7)) in
  let cl := {| project := "proj"; credentials := Some (Cred 7); http := None;
               _use_gax := PyBool false; _vision_api_internal := None |} in
  let w1 := set_heap [OClient cl] w in
  exists cl1 cl2,
    heap w1 !! 0 = Some (OClient cl1)
    /\ heap (set_heap [OClient cl; OClient cl] (set_environ ∅ w)) !! 1
       = Some (OClient cl2)
    /\ _use_gax cl1 = _use_gax cl2
    /\ 0 <> 1.
Proof.
  apply (default_clients_agree
           (import_module {[DISABLE_GRPC := "1"]} (Some "proj") (Some (Cred 7)))
           None None None 0 _ [DelEnv DISABLE_GRPC] None None None 1).
  - reflexivity.
  - vm_compute. reflexivity.
Defined.

(** ** Ownership of adapters *)

Lemma heap_change_owner_inv o h h' :
  heap_change o h h' -> owner_inv h -> owner_inv h'.
Proof.
  intros Hc Hinv l c a Hl Hi.
  destruct Hc as [ |x Hx|self c0 Ho Hs Hn|self c0 v Ho Hs].
  - eauto.
  - apply lookup_app_Some in Hl as [Hl|[Hge Hl]].
    + destruct (Hinv _ _ _ Hl Hi) as (b & Ha). exists b.
      rewrite lookup_app_l; [assumption|]. now apply lookup_lt_Some in Ha.
    + destruct (l - length h) as [|k]; simpl in Hl; [|discriminate].
      injection Hl as ->. simpl in Hx. congruence.
  - pose proof (lookup_lt_Some _ _ _ Hs) as Hlt.
    destruct (decide (self = l)) as [->|Hne].
    + rewrite list_lookup_insert_eq in Hl
        by (rewrite length_app; simpl; lia).
      injection Hl as <-. simpl in Hi. injection Hi as <-.
      exists (truthy (_use_gax c0)).
      rewrite list_lookup_insert_ne by lia.
      now rewrite lookup_app_r, Nat.sub_diag by lia.
    + rewrite list_lookup_insert_ne in Hl by assumption.
      apply lookup_app_Some in Hl as [Hl|[Hge Hl]].
      * destruct (Hinv _ _ _ Hl Hi) as (b & Ha). exists b.
        rewrite list_lookup_insert_ne.
        -- rewrite lookup_app_l; [assumption|]. now apply lookup_lt_Some in Ha.
        -- intros ->. rewrite Hs in Ha. injection Ha as Ha.
           symmetry in Ha. now apply adapter_for_not_client in Ha.
      * destruct (l - length h) as [|k]; simpl in Hl; [|discriminate].
        injection Hl as Hl. now apply adapter_for_not_client in Hl.
  - pose proof (lookup_lt_Some _ _ _ Hs) as Hlt.
    assert (Hold : exists c1, h !! l = Some (OClient c1)
                              /\ _vision_api_internal c1 = Some a).
    { destruct (decide (self = l)) as [->|Hne].
      - rewrite list_lookup_insert_eq in Hl by assumption.
        injection Hl as <-. now exists c0.
      - rewrite list_lookup_insert_ne in Hl by assumption. now exists c. }
    destruct Hold as (c1 & Hl1 & Hi1).
    destruct (Hinv _ _ _ Hl1 Hi1) as (b & Ha). exists b.
    rewrite list_lookup_insert_ne; [assumption|].
    intros ->. rewrite Hs in Ha. injection Ha as Ha.
    symmetry in Ha. now apply adapter_for_not_client in Ha.
Qed.

Lemma reachable_owner_inv w : reachable w -> owner_inv (heap w).
Proof.
  induction 1 as [env ap ac|o w Hw IH].
  - intros l c a Hl. discriminate.
  - eapply heap_change_owner_inv; eauto using step_heap.
Qed.

(** X4.  In every world a program can reach, the adapter a client has
    cached is an adapter object constructed with that client as its
    argument, and two different clients never share one adapter. *)
Theorem adapter_bound_to_its_client w l1 a :
  reachable w ->
  client_state l1 w = Some (AdapterResolved a) ->
  (heap w !! a = Some (OGAPICVisionAPI l1)
   \/ heap w !! a = Some (OHTTPVisionAPI l1))
  /\ forall l2, client_state l2 w = Some (AdapterResolved a) -> l2 = l1.
Proof.
  intros Hr Hs. pose proof (reachable_owner_inv _ Hr) as Hinv.
  assert (Hown : forall l, client_state l w = Some (AdapterResolved a) ->
                           exists b, heap w !! a = Some (adapter_for b l)).
  { intros l Hl. apply client_state_Some in Hl as (c & Hl & Hc).
    destruct (_vision_api_internal c) as [a'|] eqn:Hi; [|discriminate].
    injection Hc as ->. eauto. }
  destruct (Hown _ Hs) as (b & Ha). split.
  - destruct b; [now left|now right].
  - intros l2 Hs2. destruct (Hown _ Hs2) as (b2 & Ha2).
    rewrite Ha in Ha2. destruct b, b2; simpl in Ha2; congruence.
Qed.

Lemma adapter_bound_to_its_client_witness :
  let w := snd (exec [NewClient None None None PyNone;
                      NewClient None None None (PyBool false);
                      GetVisionApi 1; GetVisionApi 0]
                     (import_module ∅ (Some "proj") (Some (Cred 7)))) in
  (heap w !! 2 = Some (OGAPICVisionAPI 1)
   \/ heap w !! 2 = Some (OHTTPVisionAPI 1))
  /\ forall l2, client_state l2 w = Some (AdapterResolved 2) -> l2 = 1.
Proof.
  apply (adapter_bound_to_its_client
           (snd (exec [NewClient None None None PyNone;
                       NewClient None None None (PyBool false);
                       GetVisionApi 1; GetVisionApi 0]
                      (import_module ∅ (Some "proj") (Some (Cred 7)))))
           1 2).
  - apply exec_reachable. constructor.
  - reflexivity.
Defined.

(** X5.  Adapters are constructed by accesses only: no other call
    (constructing a client, [batch], [image], assigning the flag, changing
    the environment) constructs an adapter for any client. *)
Theorem only_access_constructs_adapters w o l :
  no_access o = true ->
  adapters_constructed l (snd (step o w)) = adapters_constructed l w.
Proof.
  intros Ho. unfold adapters_constructed.
  destruct (step_heap o w) as [ |x Hx|self c Hacc Hs Hn|self c v Hacc Hs].
  - reflexivity.
  - now rewrite count_app, (plain_obj_not_adapter _ _ Hx), Nat.add_0_r.
  - subst o. discriminate.
  - now rewrite (count_insert_client l _ self c).
Qed.

Lemma only_access_constructs_adapters_witness :
  let cl := {| project := "proj"; credentials := Some (Cred 7); http := None;
               _use_gax := PyBool true; _vision_api_internal := None |} in
  let w := set_heap [OClient cl] (import_module ∅ (Some "proj") (Some (Cred 7))) in
  adapters_constructed 0 (snd (step (CallImage 0 None None None) w))
  = adapters_constructed 0 w.
Proof.
  apply (only_access_constructs_adapters
           (set_heap
              [OClient {| project := "proj"; credentials := Some (Cred 7);
                          http := None; _use_gax := PyBool true;
                          _vision_api_internal := None |}]
              (import_module ∅ (Some "proj") (Some (Cred 7))))
           (CallImage 0 None None None) 0 eq_refl).
Defined.

(** ** The factory methods and the constructor *)

(** X6.  [image] is not memoised: a second call with the very same
    arguments, after whatever happened in between, returns another [Image]
    at another address, and both carry the arguments and are bound to the
    same client. *)
Theorem image_returns_fresh_image w self c content filename source_uri :
  heap w !! self = Some (OClient c) ->
  forall os,
    let i1 := length (heap w) in
    let w1 := set_heap (heap w ++ [OImage self content filename source_uri]) w in
    let w2 := snd (exec os w1) in
    Client.image self content filename source_uri w = Ok (i1, w1)
    /\ exists i2 w3,
         Client.image self content filename source_uri w2 = Ok (i2, w3)
         /\ i2 <> i1
         /\ heap w3 !! i1 = Some (OImage self content filename source_uri)
         /\ heap w3 !! i2 = Some (OImage self content filename source_uri).
Proof.
  intros Hl os i1 w1 w2. split; [now apply image_eq with c|].
  pose proof (lookup_lt_Some _ _ _ Hl) as Hlt.
  assert (Hl1 : heap w1 !! self = Some (OClient c))
    by (simpl; now rewrite lookup_app_l).
  assert (Hi1 : heap w1 !! i1 = Some (OImage self content filename source_uri))
    by (simpl; subst i1; now rewrite lookup_app_r, Nat.sub_diag by lia).
  destruct (exec_client os _ _ _ Hl1) as (c' & Hl2 & _).
  pose proof (exec_other os _ _ _ Hi1 ltac:(discriminate)) as Hi2.
  fold w2 in Hl2, Hi2.
  pose proof (lookup_lt_Some _ _ _ Hi2) as Hlt2.
  exists (length (heap w2)),
    (set_heap (heap w2 ++ [OImage self content filename source_uri]) w2).
  split; [now apply image_eq with c'|]. simpl.
  split; [lia|]. split; [now rewrite lookup_app_l|].
  now rewrite lookup_app_r, Nat.sub_diag by lia.
Qed.

Lemma image_returns_fresh_image_witness :
  let cl := {| project := "proj"; credentials := Some (Cred 7); http := None;
               _use_gax := PyBool true; _vision_api_internal := None |} in
  let w := set_heap [OClient cl] (import_module ∅ (Some "proj") (Some (Cred 7))) in
  let w1 := set_heap [OClient cl; OImage 0 None (Some "x.png") None] w in
  Client.image 0 None (Some "x.png") None w = Ok (1, w1)
  /\ exists i2 w3,
       Client.image 0 None (Some "x.png") None (snd (exec [GetVisionApi 0] w1))
       = Ok (i2, w3)
       /\ i2 <> 1
       /\ heap w3 !! 1 = Some (OImage 0 None (Some "x.png") None)
       /\ heap w3 !! i2 = Some (OImage 0 None (Some "x.png") None).
Proof.
  apply (image_returns_fresh_image
           (set_heap
              [OClient {| project := "proj"; credentials := Some (Cred 7);
                          http := None; _use_gax := PyBool true;
                          _vision_api_internal := None |}]
              (import_module ∅ (Some "proj") (Some (Cred 7))))
           0 _ None (Some "x.png") None eq_refl [GetVisionApi 0]).
Defined.

(** X7.  Whether construction succeeds does not depend on [use_gax], and
    neither do the address, the project, the credentials and the http object
    of the client: the base class is initialised before [use_gax] is looked
    at, and without it. *)
Theorem construction_outcome_ignores_use_gax w p c h g g' :
  (forall e, Client.__init__ p c h g w = Raise e
             <-> Client.__init__ p c h g' w = Raise e)
  /\ (forall self w1,
        Client.__init__ p c h g w = Ok (self, w1) ->
        exists w1' cl cl',
          Client.__init__ p c h g' w = Ok (self, w1')
          /\ heap w1 !! self = Some (OClient cl)
          /\ heap w1' !! self = Some (OClient cl')
          /\ project cl = project cl'
          /\ credentials cl = credentials cl'
          /\ http cl = http cl').
Proof.
  unfold Client.__init__, ClientWithProject_init, bind, get_world, raise,
    ret, alloc.
  split.
  - intros e.
    destruct p as [p|], (ambient_project w) as [ap|],
      c as [c|], h as [h|], (ambient_credentials w) as [ac|]; simpl;
      split; intros H; try discriminate H; assumption.
  - intros self w1.
    destruct p as [p|], (ambient_project w) as [ap|],
      c as [c|], h as [h|], (ambient_credentials w) as [ac|]; simpl;
      intros H; try discriminate H; injection H as <- <-;
      (eexists _, _, _; split; [reflexivity|]; simpl;
       rewrite !lookup_app_r, !Nat.sub_diag by lia; simpl;
       repeat split; reflexivity).
Qed.

(** X8.  What a client has handed out is never touched again: over every
    sequence of calls, each [Batch], [Image] and adapter object stays at its
    address exactly as it was created. *)
Theorem handed_out_objects_untouched w l x os :
  heap w !! l = Some x ->
  (forall c, x <> OClient c) ->
  heap (snd (exec os w)) !! l = Some x.
Proof. intros Hl Hx. now apply exec_other. Qed.

Lemma handed_out_objects_untouched_witness :
  let cl := {| project := "proj"; credentials := Some (Cred 7); http := None;
               _use_gax := PyBool true; _vision_api_internal := None |} in
  let w := set_heap [OClient cl; OBatch 0]
                    (import_module ∅ (Some "proj") (Some (Cred 7))) in
  heap (snd (exec [GetVisionApi 0; SetUseGax 0 PyNone; CallBatch 0] w)) !! 1
  = Some (OBatch 0).
Proof.
  apply (handed_out_objects_untouched
           (set_heap
              [OClient {| project := "proj"; credentials := Some (Cred 7);
                          http := None; _use_gax := PyBool true;
                          _vision_api_internal := None |};
               OBatch 0]
              (import_module ∅ (Some "proj") (Some (Cred 7))))
           1 (OBatch 0) [GetVisionApi 0; SetUseGax 0 PyNone; CallBatch 0]
           eq_refl).
  discriminate.
Defined.

Lemma construction_outcome_ignores_use_gax_witness :
  let w := import_module ∅ None (Some (Cred 7)) in
  Client.__init__ None None None (PyBool true) w
  = Raise AuthenticationResolutionError.
Proof.
  apply (proj1 (proj1 (construction_outcome_ignores_use_gax
                         (import_module ∅ None (Some (Cred 7)))
                         None None None PyNone (PyBool true))
                      AuthenticationResolutionError)).
  reflexivity.
Defined.
